(** * Fitness tracker ([homework.py]): calculation core, dispatcher and report

    The development embeds the Python module shallowly:

    - an exception is a value of [exn] and every operation that can raise
      returns a [result];
    - an instance is an [object]: its class and its attribute dictionary
      (a [gmap] from attribute names to numbers); [self.x] is [getattr],
      which looks in the instance first and then along the method resolution
      order of the class, as Python does;
    - Python numbers ([int] and [float]) are modelled by the exact rational
      they denote ([Q]).  Binary64 rounding, overflow, infinities and NaN are
      outside this model: every theorem below is a statement about the
      formulas the program evaluates, in exact arithmetic. *)

From Stdlib Require Import QArith Qround Qabs Lqa ZArith NArith Lia.
From Stdlib Require Import String Ascii List DecimalString DecimalN DecimalPos.
From stdpp Require Import gmap strings.

Local Open Scope Q_scope.

(** ** The fragment of the Python runtime the program uses *)

Module Py.

Inductive exn : Type :=
| ZeroDivisionError
| TypeError
| AttributeError
| KeyError
| NotImplementedError
| RuntimeError (msg : string).

Inductive result (A : Type) : Type :=
| Ok (a : A)
| Raise (e : exn).
Arguments Ok {A} a.
Arguments Raise {A} e.

Definition bind {A B : Type} (r : result A) (k : A -> result B) : result B :=
  match r with
  | Ok a => k a
  | Raise e => Raise e
  end.

(** Python numbers, read as exact rationals. *)
Definition number : Type := Q.

(** [x / y] *)
Definition truediv (x y : number) : result number :=
  if Qeq_bool y 0 then Raise ZeroDivisionError else Ok (x / y).

(** [x // y] *)
Definition floordiv (x y : number) : result number :=
  if Qeq_bool y 0 then Raise ZeroDivisionError
  else Ok (inject_Z (Qfloor (x / y))).

(** [x ** n] for a literal exponent [n] *)
Definition pow (x : number) (n : Z) : number := x ^ n.

(** Two results agree when they raise the same exception or return equal
    rationals ([1 # 2] and [2 # 4] are the same number). *)
Definition req (r1 r2 : result number) : Prop :=
  match r1, r2 with
  | Ok x, Ok y => x == y
  | Raise e1, Raise e2 => e1 = e2
  | _, _ => False
  end.

(** [returns r q]: the call returned normally, with the value [q]. *)
Definition returns (r : result number) (q : Q) : Prop := req r (Ok q).

End Py.
Export Py.

Notation "'let*' x ':=' e 'in' k" := (bind e (fun x => k))
  (at level 10, x name, e at level 100, k at level 200).
Infix "=r=" := req (at level 70, no associativity).

(** ** Classes *)

Inductive cls : Type := Training | Running | SportsWalking | Swimming.

(** [C.__name__] *)
Definition name_of (c : cls) : string :=
  match c with
  | Training => "Training"
  | Running => "Running"
  | SportsWalking => "SportsWalking"
  | Swimming => "Swimming"
  end.

(** The base class named in the [class] statement. *)
Definition base (c : cls) : option cls :=
  match c with
  | Training => None
  | Running | SportsWalking | Swimming => Some Training
  end.

(** Method resolution order ([object] left out). *)
Definition mro (c : cls) : list cls :=
  match base c with
  | None => [c]
  | Some b => [c; b]
  end.

(** The constants assigned in each class body. *)
Definition class_body (c : cls) : gmap string number :=
  match c with
  | Training =>
      {[ "LEN_STEP" := 0.65; "M_IN_KM" := 1000; "HOUR" := 60 ]}
  | Running =>
      {[ "CALORIE_MULTIPLIER" := 18; "CALORIE_SUBSTRACTER" := 20 ]}
  | SportsWalking =>
      {[ "CALORIE_MULTIPLIER_1" := 0.035; "CALORIE_MULTIPLIER_2" := 0.029 ]}
  | Swimming =>
      {[ "CALORIE_PLUSER" := 1.1; "CALORIE_MULTIPLIER" := 2;
         "LEN_STEP" := 1.38 ]}
  end.

(** The methods each class body defines. *)
Definition defines (c : cls) : list string :=
  match c with
  | Training =>
      ["__init__"; "get_distance"; "get_mean_speed"; "get_spent_calories";
       "show_training_info"]
  | Running => ["__init__"; "get_spent_calories"]
  | SportsWalking => ["__init__"; "get_spent_calories"]
  | Swimming => ["__init__"; "get_mean_speed"; "get_spent_calories"]
  end.

(** First class of a resolution order whose body binds [name]. *)
Fixpoint lookup_mro (l : list cls) (name : string) : option number :=
  match l with
  | [] => None
  | c :: l' =>
      match class_body c !! name with
      | Some v => Some v
      | None => lookup_mro l' name
      end
  end.

(** First class of a resolution order whose body defines method [m]. *)
Fixpoint resolve_in (l : list cls) (m : string) : option cls :=
  match l with
  | [] => None
  | c :: l' => if bool_decide (m ∈ defines c) then Some c else resolve_in l' m
  end.

Definition resolve (c : cls) (m : string) : option cls := resolve_in (mro c) m.

(** ** Instances *)

Record object : Type := Object {
  type : cls;
  dict : gmap string number
}.

(** [self.name] *)
Definition getattr (self : object) (name : string) : result number :=
  match dict self !! name with
  | Some v => Ok v
  | None =>
      match lookup_mro (mro (type self)) name with
      | Some v => Ok v
      | None => Raise AttributeError
      end
  end.

(** [self.name = v] *)
Definition setattr (self : object) (name : string) (v : number) : object :=
  {| type := type self; dict := <[name := v]> (dict self) |}.

(** *** Constructors *)

Definition Training_init (self : object) (action duration weight : number)
  : object :=
  let self := setattr self "action" action in
  let self := setattr self "duration" duration in
  setattr self "weight" weight.

Definition Running_init (self : object) (action duration weight : number)
  : object :=
  Training_init self action duration weight.

Definition SportsWalking_init (self : object)
    (action duration weight height : number) : object :=
  let self := Training_init self action duration weight in
  setattr self "height" height.

Definition Swimming_init (self : object)
    (action duration weight length_pool count_pool : number) : object :=
  let self := Training_init self action duration weight in
  let self := setattr self "length_pool" length_pool in
  setattr self "count_pool" count_pool.

(** Parameters of each [__init__] after [self], in declaration order. *)
Definition init_params (c : cls) : list string :=
  match c with
  | Training | Running => ["action"; "duration"; "weight"]
  | SportsWalking => ["action"; "duration"; "weight"; "height"]
  | Swimming => ["action"; "duration"; "weight"; "length_pool"; "count_pool"]
  end.

(** Number of row elements the specification gives for each class. *)
Definition arity (c : cls) : nat :=
  match c with
  | Training | Running => 3
  | SportsWalking => 4
  | Swimming => 5
  end.

(** Calling the class [c] with the unpacked list [data]: a fresh instance of
    [c], initialised by the [__init__] of [c] with the elements of [data] as
    positional arguments.  Too few or too many arguments raise [TypeError]. *)
Definition call (c : cls) (data : list number) : result object :=
  let self := {| type := c; dict := ∅ |} in
  match c, data with
  | Training, [action; duration; weight] =>
      Ok (Training_init self action duration weight)
  | Running, [action; duration; weight] =>
      Ok (Running_init self action duration weight)
  | SportsWalking, [action; duration; weight; height] =>
      Ok (SportsWalking_init self action duration weight height)
  | Swimming, [action; duration; weight; length_pool; count_pool] =>
      Ok (Swimming_init self action duration weight length_pool count_pool)
  | _, _ => Raise TypeError
  end.

(** ** Methods *)

(** [Training.get_distance] *)
Definition Training_get_distance (self : object) : result number :=
  let* action := getattr self "action" in
  let* LEN_STEP := getattr self "LEN_STEP" in
  let* M_IN_KM := getattr self "M_IN_KM" in
  truediv (action * LEN_STEP) M_IN_KM.

(** [self.get_distance()] *)
Definition get_distance (self : object) : result number :=
  match resolve (type self) "get_distance" with
  | Some Training => Training_get_distance self
  | _ => Raise AttributeError
  end.

(** [Training.get_mean_speed] *)
Definition Training_get_mean_speed (self : object) : result number :=
  let* distance := get_distance self in
  let* duration := getattr self "duration" in
  truediv distance duration.

(** [Swimming.get_mean_speed] *)
Definition Swimming_get_mean_speed (self : object) : result number :=
  let* length_pool := getattr self "length_pool" in
  let* count_pool := getattr self "count_pool" in
  let* M_IN_KM := getattr self "M_IN_KM" in
  let* in_km := truediv (length_pool * count_pool) M_IN_KM in
  let* duration := getattr self "duration" in
  truediv in_km duration.

(** [self.get_mean_speed()] *)
Definition get_mean_speed (self : object) : result number :=
  match resolve (type self) "get_mean_speed" with
  | Some Swimming => Swimming_get_mean_speed self
  | Some Training => Training_get_mean_speed self
  | _ => Raise AttributeError
  end.

(** [Training.get_spent_calories] *)
Definition Training_get_spent_calories (self : object) : result number :=
  Raise NotImplementedError.

(** [Running.get_spent_calories] *)
Definition Running_get_spent_calories (self : object) : result number :=
  let* CALORIE_MULTIPLIER := getattr self "CALORIE_MULTIPLIER" in
  let* mean_speed := get_mean_speed self in
  let* CALORIE_SUBSTRACTER := getattr self "CALORIE_SUBSTRACTER" in
  let* weight := getattr self "weight" in
  let* M_IN_KM := getattr self "M_IN_KM" in
  let* per_minute :=
    truediv ((CALORIE_MULTIPLIER * mean_speed - CALORIE_SUBSTRACTER) * weight)
            M_IN_KM in
  let* duration := getattr self "duration" in
  let* HOUR := getattr self "HOUR" in
  Ok (per_minute * (duration * HOUR)).

(** [SportsWalking.get_spent_calories] *)
Definition SportsWalking_get_spent_calories (self : object) : result number :=
  let* CALORIE_MULTIPLIER_1 := getattr self "CALORIE_MULTIPLIER_1" in
  let* weight := getattr self "weight" in
  let* mean_speed := get_mean_speed self in
  let* height := getattr self "height" in
  let* quotient := floordiv (pow mean_speed 2) height in
  let* CALORIE_MULTIPLIER_2 := getattr self "CALORIE_MULTIPLIER_2" in
  let* weight' := getattr self "weight" in
  let* duration := getattr self "duration" in
  let* HOUR := getattr self "HOUR" in
  Ok ((CALORIE_MULTIPLIER_1 * weight
       + quotient * CALORIE_MULTIPLIER_2 * weight')
      * (duration * HOUR)).

(** [Swimming.get_spent_calories] *)
Definition Swimming_get_spent_calories (self : object) : result number :=
  let* mean_speed := get_mean_speed self in
  let* CALORIE_PLUSER := getattr self "CALORIE_PLUSER" in
  let* CALORIE_MULTIPLIER := getattr self "CALORIE_MULTIPLIER" in
  let* weight := getattr self "weight" in
  Ok ((mean_speed + CALORIE_PLUSER) * CALORIE_MULTIPLIER * weight).

(** [self.get_spent_calories()] *)
Definition get_spent_calories (self : object) : result number :=
  match resolve (type self) "get_spent_calories" with
  | Some Training => Training_get_spent_calories self
  | Some Running => Running_get_spent_calories self
  | Some SportsWalking => SportsWalking_get_spent_calories self
  | Some Swimming => Swimming_get_spent_calories self
  | None => Raise AttributeError
  end.

(** ** Formatting numbers: the format specification [.3f] *)

(** Nearest integer, a tie going to the even neighbour. *)
Definition round_half_even (q : Q) : Z :=
  let f := Qfloor q in
  match Qcompare (q - inject_Z f) (1 # 2) with
  | Lt => f
  | Gt => (f + 1)%Z
  | Eq => if Z.even f then f else (f + 1)%Z
  end.

(** Decimal numeral of a natural number, without leading zeros. *)
Definition str_N (n : N) : string := NilZero.string_of_uint (N.to_uint n).

(** The character of the last decimal digit of [n]. *)
Definition digit (n : N) : ascii := ascii_of_N (48 + n mod 10).

(** [n] below 1000 on three digits, zero-padded. *)
Definition zfill3 (n : N) : string :=
  String (digit (n / 100)) (String (digit (n / 10)) (String (digit n) "")).

(** [format(x, ".3f")]: sign, integer part, a point, three decimals. *)
Definition format_3f (x : number) : string :=
  let thousandths := Z.to_N (round_half_even (Qabs x * 1000)) in
  (if Qle_bool 0 x then "" else "-")
  +:+ str_N (thousandths / 1000) +:+ "." +:+ zfill3 (thousandths mod 1000).

(** *** Recognising a fixed-point numeral with three decimals *)






(** *** Reading such a numeral back *)




(** ** The report *)

Record InfoMessage : Type := {
  training_type : string;
  duration : number;
  distance : number;
  speed : number;
  calories : number
}.

(** [InfoMessage.get_message] *)
Definition get_message (self : InfoMessage) : string :=
  "Тип тренировки: " +:+ training_type self +:+ "; "
  +:+ "Длительность: " +:+ format_3f (duration self) +:+ " ч.; "
  +:+ "Дистанция: " +:+ format_3f (distance self) +:+ " км; "
  +:+ "Ср. скорость: " +:+ format_3f (speed self) +:+ " км/ч; "
  +:+ "Потрачено ккал: " +:+ format_3f (calories self) +:+ ".".

(** [Training.show_training_info], inherited by every class. *)
Definition show_training_info (self : object) : result InfoMessage :=
  let* duration := getattr self "duration" in
  let* distance := get_distance self in
  let* speed := get_mean_speed self in
  let* calories := get_spent_calories self in
  Ok {| training_type := name_of (type self);
        duration := duration;
        distance := distance;
        speed := speed;
        calories := calories |}.

(** ** The dispatcher *)

Definition WORKOUT_DICTIONARY : gmap string cls :=
  {[ "SWM" := Swimming; "RUN" := Running; "WLK" := SportsWalking ]}.

(** [key in d] *)
Definition contains (d : gmap string cls) (key : string) : bool :=
  bool_decide (is_Some (d !! key)).

(** [d[key]] *)
Definition getitem (d : gmap string cls) (key : string) : result cls :=
  match d !! key with
  | Some c => Ok c
  | None => Raise KeyError
  end.

(** The exception [read_package] raises for a code that is not a key. *)
Definition unknown_workout_type : exn :=
  RuntimeError "Данный вид тренировки отсутствует".

Definition read_package (workout_type : string) (data : list number)
  : result object :=
  if negb (contains WORKOUT_DICTIONARY workout_type)
  then Raise unknown_workout_type
  else
    let* c := getitem WORKOUT_DICTIONARY workout_type in
    call c data.

(** [main] prints one line; the line is what the model returns. *)
Definition main (training : object) : result string :=
  let* info := show_training_info training in
  Ok (get_message info).

(** The sample readings of the script. *)
Definition packages : list (string * list number) :=
  [ ("SWM", [720; 1; 80; 25; 40]);
    ("RUN", [15000; 1; 75]);
    ("WLK", [9000; 1; 75; 180]) ].

(** The loop of the script: the lines printed, or the first exception. *)
Fixpoint run (ps : list (string * list number)) : result (list string) :=
  match ps with
  | [] => Ok []
  | (workout_type, data) :: ps' =>
      let* training := read_package workout_type data in
      let* line := main training in
      let* lines := run ps' in
      Ok (line :: lines)
  end.

(** The same loop with the standard output made explicit: [out] holds the
    lines already printed; the result is the output when the loop ends and
    the exception that ended it, if any. *)
Fixpoint script (ps : list (string * list number)) (out : list string)
  : list string * option exn :=
  match ps with
  | [] => (out, None)
  | (workout_type, data) :: ps' =>
      match (let* training := read_package workout_type data in
             main training) with
      | Ok line => script ps' (out ++ [line])
      | Raise e => (out, Some e)
      end
  end.



(** * Properties *)

(** ** Symbolic evaluation of attribute access and method resolution *)

Ltac py_getattr :=
  match goal with
  | |- context [getattr ?o ?n] =>
      let v := eval vm_compute in (getattr o n) in
      change (getattr o n) with v
  | |- context [resolve ?c ?m] =>
      let v := eval vm_compute in (resolve c m) in
      change (resolve c m) with v
  end.

Ltac py_unfold :=
  unfold get_spent_calories, Running_get_spent_calories,
    SportsWalking_get_spent_calories, Swimming_get_spent_calories,
    Training_get_spent_calories,
    get_mean_speed, Training_get_mean_speed, Swimming_get_mean_speed,
    get_distance, Training_get_distance.

Ltac py_call :=
  repeat match goal with
  | |- context [call ?c ?l] =>
      let v := eval hnf in (call c l) in change (call c l) with v
  end.

Ltac py_eval :=
  py_call;
  repeat first [ progress cbn [bind type] | py_getattr | progress py_unfold ].

(** A closed non-membership in a list of names. *)
Ltac not_in_list :=
  let H := fresh in
  intros H; apply (bool_decide_eq_true_2 _) in H;
  vm_compute in H; discriminate H.


(** A closed numeric claim is decided by evaluation. *)
Ltac py_compute := vm_compute; first [ reflexivity | easy ].

(** ** Running *)


(** C2, as stated, fails on the sample row: the distance and the speed are
    9.75, but the calories are not within 5 of 694.575 (they are 699.75). *)
Lemma read_package_RUN_sample_not_694_575 :
  ~ (returns (let* self := read_package "RUN" [15000; 1; 75] in
              get_distance self) 9.75 /\
     returns (let* self := read_package "RUN" [15000; 1; 75] in
              get_mean_speed self) 9.75 /\
     exists c : number,
       (let* self := read_package "RUN" [15000; 1; 75] in
        get_spent_calories self) = Ok c /\
       Qabs (c - 694.575) <= 5).
Proof.
  intros (_ & _ & c & Hc & Hclose).
  vm_compute in Hc. injection Hc as <-.
  vm_compute in Hclose. apply Hclose. reflexivity.
Qed.

(** C2, amended. Dispatching ["RUN"] with the row [[15000, 1, 75]] builds a
    [Running] instance whose distance is 9.75, whose mean speed is 9.75 and
    whose calories are [(18 * 9.75 - 20) * 75 / 1000 * 60 = 699.75]. *)
Theorem read_package_RUN_sample :
  (let* self := read_package "RUN" [15000; 1; 75] in Ok (type self))
  = Ok Running /\
  returns (let* self := read_package "RUN" [15000; 1; 75] in
           get_distance self) 9.75 /\
  returns (let* self := read_package "RUN" [15000; 1; 75] in
           get_mean_speed self) 9.75 /\
  returns (let* self := read_package "RUN" [15000; 1; 75] in
           get_spent_calories self) 699.75 /\
  (18 * 9.75 - 20) * 75 / 1000 * 60 == 699.75.
Proof. repeat split; py_compute. Qed.

(** ** Race walking *)



(** ** Swimming *)


(** ** The dispatcher *)

Lemma WORKOUT_DICTIONARY_lookup (workout_type : string) :
  WORKOUT_DICTIONARY !! workout_type =
    if decide (workout_type = "SWM") then Some Swimming
    else if decide (workout_type = "RUN") then Some Running
    else if decide (workout_type = "WLK") then Some SportsWalking
    else None.
Proof.
  unfold WORKOUT_DICTIONARY.
  repeat case_decide; subst; try reflexivity.
  rewrite !lookup_insert_ne by congruence.
  apply lookup_singleton_ne. congruence.
Qed.

Lemma read_package_lookup (workout_type : string) (data : list number) :
  read_package workout_type data =
    match WORKOUT_DICTIONARY !! workout_type with
    | Some c => call c data
    | None => Raise unknown_workout_type
    end.
Proof.
  unfold read_package, contains, getitem.
  destruct (WORKOUT_DICTIONARY !! workout_type) as [c|] eqn:E.
  - rewrite bool_decide_eq_true_2 by eauto. reflexivity.
  - rewrite bool_decide_eq_false_2 by (intros [c Hc]; discriminate Hc).
    reflexivity.
Qed.

Lemma call_type (c : cls) (data : list number) (self : object) :
  call c data = Ok self -> type self = c.
Proof.
  destruct c, data as [|a [|d [|w [|x [|y [|z l]]]]]]; simpl;
    intros H; inversion H; reflexivity.
Qed.

(** C5. [read_package] selects [Swimming] for ["SWM"], [Running] for
    ["RUN"] and [SportsWalking] for ["WLK"] and calls that class with the
    row; the instance built has the class selected.  Every other code raises
    the [RuntimeError] of the unknown workout type, whatever the row, and the
    loop of the script lets it through: no class is used by default. *)
Theorem read_package_dispatch (workout_type : string) (data : list number) :
  read_package workout_type data =
    (if decide (workout_type = "SWM") then call Swimming data
     else if decide (workout_type = "RUN") then call Running data
     else if decide (workout_type = "WLK") then call SportsWalking data
     else Raise unknown_workout_type) /\
  (forall (c : cls) (self : object), call c data = Ok self -> type self = c) /\
  (workout_type ∉ ["SWM"; "RUN"; "WLK"] ->
   read_package workout_type data = Raise unknown_workout_type /\
   forall ps, run ((workout_type, data) :: ps) = Raise unknown_workout_type).
Proof.
  assert (Hchain : read_package workout_type data =
    (if decide (workout_type = "SWM") then call Swimming data
     else if decide (workout_type = "RUN") then call Running data
     else if decide (workout_type = "WLK") then call SportsWalking data
     else Raise unknown_workout_type)).
  { rewrite read_package_lookup, WORKOUT_DICTIONARY_lookup.
    repeat case_decide; reflexivity. }
  split; [ exact Hchain | ].
  split; [ intros c self; apply call_type | ].
  intros Hnot.
  assert (Hraise : read_package workout_type data = Raise unknown_workout_type).
  { rewrite Hchain. repeat case_decide; subst; try reflexivity;
      exfalso; apply Hnot; set_solver. }
  split; [ exact Hraise | ].
  intros ps. cbn [run]. rewrite Hraise. reflexivity.
Qed.

Lemma read_package_dispatch_XYZ :
  ("XYZ" ∉ ["SWM"; "RUN"; "WLK"]) /\
  read_package "XYZ" [15000; 1; 75] = Raise unknown_workout_type /\
  run (("XYZ", [15000; 1; 75]) :: packages) = Raise unknown_workout_type.
Proof.
  assert (Hnot : "XYZ" ∉ ["SWM"; "RUN"; "WLK"]) by not_in_list.
  split; [ exact Hnot | ].
  destruct (read_package_dispatch "XYZ" [15000; 1; 75])
    as (_ & _ & Hunknown).
  destruct (Hunknown Hnot) as [Hraise Hrun].
  split; [ exact Hraise | exact (Hrun packages) ].
Defined.

(** C6. For a recognised code, whose class is [c]: [__init__] of [c] takes 3
    parameters for [Running], 4 for [SportsWalking], 5 for [Swimming]; a row
    of any other length raises [TypeError] at the call of the class, and a
    row of that length builds an instance of [c] whose attributes are exactly
    the parameters of [__init__], the [i]-th parameter holding the [i]-th
    element of the row. *)
Theorem read_package_arity
    (workout_type : string) (c : cls) (data : list number) :
  WORKOUT_DICTIONARY !! workout_type = Some c ->
  arity Running = 3%nat /\ arity SportsWalking = 4%nat /\
  arity Swimming = 5%nat /\
  length (init_params c) = arity c /\
  (length data <> arity c -> read_package workout_type data = Raise TypeError) /\
  (length data = arity c ->
   exists self : object,
     read_package workout_type data = Ok self /\
     type self = c /\
     dom (dict self) = list_to_set (init_params c) /\
     forall (i : nat) (name : string),
       init_params c !! i = Some name -> dict self !! name = data !! i).
Proof.
  intros Hc.
  do 3 (split; [ reflexivity | ]).
  split; [ destruct c; reflexivity | ].
  rewrite read_package_lookup, Hc.
  rewrite WORKOUT_DICTIONARY_lookup in Hc.
  split.
  - intros Hlen.
    repeat case_decide; try discriminate Hc; injection Hc as <-;
      destruct data as [|a [|d [|w [|x [|y [|z l]]]]]];
      try reflexivity; exfalso; apply Hlen; reflexivity.
  - intros Hlen.
    repeat case_decide; try discriminate Hc; injection Hc as <-;
      destruct data as [|a [|d [|w [|x [|y [|z l]]]]]];
      try discriminate Hlen;
      (eexists; split; [ reflexivity | ]; split; [ reflexivity | ];
       split; [ reflexivity | ];
       intros i name Hi;
       do 5 (try destruct i as [|i]); simpl in Hi;
       try discriminate Hi; injection Hi as <-; reflexivity).
Qed.

(** ** The report *)









(** The numeral printed denotes the number, rounded to the thousandth. *)








Example format_3f_samples :
  format_3f 0.468 = "0.468" /\ format_3f 9.75 = "9.750" /\
  format_3f 0.9936 = "0.994" /\ format_3f 699.75 = "699.750" /\
  format_3f (-37.35) = "-37.350" /\ format_3f 0 = "0.000" /\
  format_3f 123456789.0625 = "123456789.062" /\
  format_3f 0.0004 = "0.000".
Proof. repeat split; reflexivity. Qed.


(** ** Swimming does not read the action count *)

Lemma getattr_setattr_ne (self : object) (k name : string) (v : number) :
  k <> name -> getattr (setattr self k v) name = getattr self name.
Proof.
  intros Hne. unfold getattr, setattr. cbn [dict type].
  rewrite lookup_insert_ne by exact Hne. reflexivity.
Qed.

Lemma Swimming_get_mean_speed_setattr
    (self : object) (k : string) (v : number) :
  k <> "length_pool" -> k <> "count_pool" -> k <> "M_IN_KM" ->
  k <> "duration" ->
  Swimming_get_mean_speed (setattr self k v) = Swimming_get_mean_speed self.
Proof.
  intros H1 H2 H3 H4. unfold Swimming_get_mean_speed.
  rewrite !getattr_setattr_ne by assumption. reflexivity.
Qed.

(** C8. Two [Swimming] instances built from the same duration, weight, pool
    length and lap count have the same mean speed and the same calories,
    whatever their action counts.  More generally, assigning the attribute
    [action] or the attribute [LEN_STEP] of a [Swimming] instance changes
    neither result. *)
Theorem Swimming_ignores_action
    (self : object) (action action' duration weight length_pool count_pool v
      : number) :
  type self = Swimming ->
  (let* s := call Swimming [action; duration; weight; length_pool; count_pool]
   in get_mean_speed s)
  = (let* s := call Swimming [action'; duration; weight; length_pool; count_pool]
     in get_mean_speed s) /\
  (let* s := call Swimming [action; duration; weight; length_pool; count_pool]
   in get_spent_calories s)
  = (let* s := call Swimming [action'; duration; weight; length_pool; count_pool]
     in get_spent_calories s) /\
  get_mean_speed (setattr self "action" v) = get_mean_speed self /\
  get_spent_calories (setattr self "action" v) = get_spent_calories self /\
  get_mean_speed (setattr self "LEN_STEP" v) = get_mean_speed self /\
  get_spent_calories (setattr self "LEN_STEP" v) = get_spent_calories self.
Proof.
  intros Hty.
  split; [ py_eval; reflexivity | ].
  split; [ py_eval; reflexivity | ].
  assert (Hspeed : forall k : string,
            k <> "length_pool" -> k <> "count_pool" -> k <> "M_IN_KM" ->
            k <> "duration" ->
            get_mean_speed (setattr self k v) = get_mean_speed self).
  { intros k H1 H2 H3 H4. unfold get_mean_speed. cbn [setattr type].
    rewrite Hty. py_getattr. cbv iota.
    now apply Swimming_get_mean_speed_setattr. }
  assert (Hcal : forall k : string,
            k <> "length_pool" -> k <> "count_pool" -> k <> "M_IN_KM" ->
            k <> "duration" -> k <> "CALORIE_PLUSER" ->
            k <> "CALORIE_MULTIPLIER" -> k <> "weight" ->
            get_spent_calories (setattr self k v) = get_spent_calories self).
  { intros k H1 H2 H3 H4 H5 H6 H7. unfold get_spent_calories.
    cbn [setattr type]. rewrite Hty. py_getattr. cbv iota.
    unfold Swimming_get_spent_calories.
    rewrite (Hspeed k) by assumption.
    rewrite !getattr_setattr_ne by assumption. reflexivity. }
  repeat split; first [ apply Hspeed | apply Hcal ]; discriminate.
Qed.

Lemma Swimming_ignores_action_sample :
  type (Swimming_init (Object Swimming ∅) 720 1 80 25 40) = Swimming /\
  get_mean_speed
    (setattr (Swimming_init (Object Swimming ∅) 720 1 80 25 40) "action" 5)
  = get_mean_speed (Swimming_init (Object Swimming ∅) 720 1 80 25 40) /\
  get_spent_calories
    (setattr (Swimming_init (Object Swimming ∅) 720 1 80 25 40) "action" 5)
  = get_spent_calories (Swimming_init (Object Swimming ∅) 720 1 80 25 40).
Proof.
  split; [ reflexivity | ].
  destruct (Swimming_ignores_action
              (Swimming_init (Object Swimming ∅) 720 1 80 25 40)
              720 5 1 80 25 40 5 eq_refl)
    as (_ & _ & Hspeed & Hcal & _).
  split; [ exact Hspeed | exact Hcal ].
Defined.

(** ** Distance *)


(** ** Negative calories *)



(** Witness of C6 on the walking sample and on a row that is one short. *)
Lemma read_package_arity_WLK :
  WORKOUT_DICTIONARY !! "WLK" = Some SportsWalking /\
  (exists self : object,
     read_package "WLK" [9000; 1; 75; 180] = Ok self /\
     type self = SportsWalking /\
     dict self !! "height" = Some 180) /\
  read_package "WLK" [9000; 1; 75] = Raise TypeError.
Proof.
  split; [ reflexivity | ].
  split.
  - destruct (read_package_arity "WLK" SportsWalking [9000; 1; 75; 180] eq_refl)
      as (_ & _ & _ & _ & _ & Hok).
    destruct (Hok eq_refl) as (self & Hself & Hty & _ & Hbind).
    exists self. split; [ exact Hself | ]. split; [ exact Hty | ].
    exact (Hbind 3%nat "height" eq_refl).
  - destruct (read_package_arity "WLK" SportsWalking [9000; 1; 75] eq_refl)
      as (_ & _ & _ & _ & Hbad & _).
    apply Hbad. discriminate.
Defined.

(** ** The script *)

Example script_output :
  run packages = Ok
    [ "Тип тренировки: Swimming; Длительность: 1.000 ч.; Дистанция: 0.994 км; Ср. скорость: 1.000 км/ч; Потрачено ккал: 336.000.";
      "Тип тренировки: Running; Длительность: 1.000 ч.; Дистанция: 9.750 км; Ср. скорость: 9.750 км/ч; Потрачено ккал: 699.750.";
      "Тип тренировки: SportsWalking; Длительность: 1.000 ч.; Дистанция: 5.850 км; Ср. скорость: 5.850 км/ч; Потрачено ккал: 157.500." ].
Proof. vm_compute. reflexivity. Qed.

(** * Further properties of the module *)

(** ** What the dispatcher builds *)



(** ** The line printed for a reading, end to end *)



(** ** Exceptions after a successful dispatch *)



(** ** The base class *)


(** ** Running: the calories in terms of the row *)



(** ** Race walking: the floor makes the calories a step function *)






(** ** Swimming: a floor under the calories *)



(** ** Distance, speed and duration in the report *)



(** ** Distance *)



(** ** Reading back what [.3f] prints *)





(** ** The loop of the script *)

Lemma script_cons
    (workout_type : string) (data : list number)
    (ps : list (string * list number)) (out : list string) :
  script ((workout_type, data) :: ps) out
  = match (let* training := read_package workout_type data in
           main training) with
    | Ok line => script ps (out ++ [line])
    | Raise e => (out, Some e)
    end.
Proof. reflexivity. Qed.

Lemma script_app (ps qs : list (string * list number)) (out : list string) :
  script (ps ++ qs) out
  = match script ps out with
    | (out', None) => script qs out'
    | (out', Some e) => (out', Some e)
    end.
Proof.
  revert out. induction ps as [|[workout_type data] ps IH]; intros out.
  - reflexivity.
  - rewrite <- app_comm_cons, !script_cons.
    destruct (let* training := read_package workout_type data in main training);
      [ apply IH | reflexivity ].
Qed.

Lemma script_of_run
    (ps : list (string * list number)) (lines out : list string) :
  run ps = Ok lines -> script ps out = (out ++ lines, None).
Proof.
  revert lines out. induction ps as [|[workout_type data] ps IH];
    intros lines out.
  - intros [= <-]. now rewrite app_nil_r.
  - rewrite script_cons. cbn [run].
    destruct (read_package workout_type data) as [training|e];
      cbn [bind]; [ | discriminate ].
    destruct (main training) as [line|e]; cbn [bind]; [ | discriminate ].
    destruct (run ps) as [lines'|e]; cbn [bind]; [ | discriminate ].
    intros [= <-]. rewrite (IH lines' _ eq_refl), <- app_assoc. reflexivity.
Qed.

(** X11. The loop stops at the first reading that fails: the lines of the
    readings before it stay printed, the exception ends the loop, and the
    readings after it are never processed, whatever they are. *)
Theorem script_stops_at_first_failure
    (ps qs : list (string * list number))
    (workout_type : string) (data : list number)
    (lines out : list string) (e : exn) :
  run ps = Ok lines ->
  (let* training := read_package workout_type data in main training)
  = Raise e ->
  script (ps ++ (workout_type, data) :: qs) out = (out ++ lines, Some e).
Proof.
  intros Hps Hbad.
  rewrite script_app, (script_of_run _ _ _ Hps), script_cons, Hbad.
  reflexivity.
Qed.

Lemma script_stops_at_first_failure_sample :
  run [("RUN", [15000; 1; 75])]
  = Ok ["Тип тренировки: Running; Длительность: 1.000 ч.; Дистанция: 9.750 км; Ср. скорость: 9.750 км/ч; Потрачено ккал: 699.750."] /\
  (let* training := read_package "WLK" [9000; 0; 75; 180] in main training)
  = Raise ZeroDivisionError /\
  script ([("RUN", [15000; 1; 75])]
          ++ ("WLK", [9000; 0; 75; 180]) :: [("SWM", [720; 1; 80; 25; 40])]) []
  = ([] ++ ["Тип тренировки: Running; Длительность: 1.000 ч.; Дистанция: 9.750 км; Ср. скорость: 9.750 км/ч; Потрачено ккал: 699.750."],
     Some ZeroDivisionError).
Proof.
  assert (Hps : run [("RUN", [15000; 1; 75])]
    = Ok ["Тип тренировки: Running; Длительность: 1.000 ч.; Дистанция: 9.750 км; Ср. скорость: 9.750 км/ч; Потрачено ккал: 699.750."])
    by (vm_compute; reflexivity).
  assert (Hbad :
    (let* training := read_package "WLK" [9000; 0; 75; 180] in main training)
    = Raise ZeroDivisionError) by (vm_compute; reflexivity).
  split; [ exact Hps | ]. split; [ exact Hbad | ].
  exact (script_stops_at_first_failure _ [("SWM", [720; 1; 80; 25; 40])]
           _ _ _ [] _ Hps Hbad).
Defined.

(** X12. Every reading processed prints one line after the lines already there:
    the output only grows, by at most one line for each reading, and by
    exactly one for each when no exception ends the loop. *)
Theorem script_output_grows
    (ps : list (string * list number)) (out : list string) :
  exists lines : list string,
    fst (script ps out) = out ++ lines /\
    (length lines <= length ps)%nat /\
    (snd (script ps out) = None -> length lines = length ps).
Proof.
  revert out. induction ps as [|[workout_type data] ps IH]; intros out.
  - exists []. cbn. rewrite app_nil_r. auto.
  - rewrite script_cons.
    destruct (let* training := read_package workout_type data in main training)
      as [line|e].
    + destruct (IH (out ++ [line])) as (lines & Hout & Hle & Hall).
      exists (line :: lines). rewrite Hout, <- app_assoc. cbn.
      split; [ reflexivity | ]. split; [ lia | ].
      intros Hnone. rewrite (Hall Hnone). reflexivity.
    + exists []. cbn. rewrite app_nil_r.
      split; [ reflexivity | ]. split; [ lia | discriminate ].
Qed.

Lemma script_output_grows_sample :
  snd (script packages []) = None /\
  exists lines : list string,
    fst (script packages []) = [] ++ lines /\
    length lines = length packages.
Proof.
  assert (Hnone : snd (script packages []) = None) by (vm_compute; reflexivity).
  split; [ exact Hnone | ].
  destruct (script_output_grows packages []) as (lines & Hout & _ & Hall).
  exists lines. split; [ exact Hout | exact (Hall Hnone) ].
Defined.
